(** * Memory manager of DietAI (src/DietAI/memory_manager.py)

    A shallow embedding of [MemoryManager]: the in-memory session buffer and
    user-message counter, the two store files, and the operations that read
    and rewrite them.  Text is modelled as [string] (ASCII); the inference
    engine is an abstract function from the prompt text to the completion
    text; the wall clock is given as the already formatted strings produced
    by [strftime]; a file write that may fail takes a boolean that says
    whether the [open]/[write] succeeds. *)

From Stdlib Require Import String Ascii List ZArith Bool Lia.
Import ListNotations.
Open Scope string_scope.

(* ------------------------------------------------------------------ *)
(** ** Python string primitives *)

Module Py.

Definition nl : string := String (ascii_of_nat 10) EmptyString.

(** [str.isspace] on ASCII: \t \n \v \f \r, the separators 0x1c-0x1f, space. *)
Definition is_space (c : ascii) : bool :=
  let n := nat_of_ascii c in
  ((9 <=? n) && (n <=? 13))%nat || ((28 <=? n) && (n <=? 32))%nat.

Fixpoint lstrip (s : string) : string :=
  match s with
  | EmptyString => EmptyString
  | String c r => if is_space c then lstrip r else s
  end.

(** [s.rstrip()]: a character is kept unless it is a space and only
    spaces follow it. *)
Fixpoint rstrip (s : string) : string :=
  match s with
  | EmptyString => EmptyString
  | String c r =>
      let r' := rstrip r in
      match r' with
      | EmptyString => if is_space c then EmptyString else String c EmptyString
      | _ => String c r'
      end
  end.

(** [s.strip()] *)
Definition strip (s : string) : string := rstrip (lstrip s).

(** [s.startswith(p)] *)
Definition startswith (p s : string) : bool := String.prefix p s.

(** [sub in s] *)
Fixpoint contains (sub s : string) : bool :=
  String.prefix sub s ||
  match s with
  | EmptyString => false
  | String _ r => contains sub r
  end.

(** [s.split('\n')] *)
Fixpoint split_nl (s : string) : list string :=
  match s with
  | EmptyString => [EmptyString]
  | String c r =>
      if Ascii.eqb c (ascii_of_nat 10) then EmptyString :: split_nl r
      else match split_nl r with
           | h :: t => String c h :: t
           | [] => [String c EmptyString]
           end
  end.

(** ['\n'.join(l)] *)
Definition join_nl (l : list string) : string := String.concat nl l.

(** [c * n] for a one-character string [c] *)
Fixpoint repeat_char (c : ascii) (n : nat) : string :=
  match n with
  | O => EmptyString
  | S k => String c (repeat_char c k)
  end.

Definition eq_line : string := repeat_char "="%char 60.
Definition dash50 : string := repeat_char "-"%char 50.
Definition dash60 : string := repeat_char "-"%char 60.

(** [l[start:]] with Python's index normalisation. *)
Definition slice_from {A} (start : Z) (l : list A) : list A :=
  let n := Z.of_nat (length l) in
  let s := if (start <? 0)%Z then Z.max 0 (n + start) else Z.min start n in
  skipn (Z.to_nat s) l.

Definition is_nil {A} (l : list A) : bool :=
  match l with [] => true | _ => false end.

End Py.

Import Py.

(* ------------------------------------------------------------------ *)
(** ** Data model *)

(** A buffered message, [{"role": role, "content": content}]. *)
Record Msg := mkMsg { role : string; content : string }.

(** The two store files; [None] means the file does not exist. *)
Record Files := mkFiles {
  short_term_file : option string;
  long_term_file : option string }.

(** The attributes of a [MemoryManager] instance, with the files it owns. *)
Record MM := mkMM {
  message_buffer : list Msg;
  message_counter : Z;
  short_term_limit : Z;
  long_term_sessions : Z;
  files : Files }.

Definition set_buffer (st : MM) (b : list Msg) (c : Z) : MM :=
  mkMM b c (short_term_limit st) (long_term_sessions st) (files st).

Definition set_short (st : MM) (f : option string) : MM :=
  mkMM (message_buffer st) (message_counter st) (short_term_limit st)
       (long_term_sessions st) (mkFiles f (long_term_file (files st))).

Definition set_long (st : MM) (f : option string) : MM :=
  mkMM (message_buffer st) (message_counter st) (short_term_limit st)
       (long_term_sessions st) (mkFiles (short_term_file (files st)) f).

(** Result of a method call: a return value, or an exception raised by a
    failed file operation. *)
Inductive outcome (A : Type) : Type :=
| Ret (a : A)
| Raise.
Arguments Ret {A} a.
Arguments Raise {A}.

(** [open(path, 'a').write(s)]: an absent file is created. *)
Definition append_file (f : option string) (s : string) : option string :=
  Some (match f with Some c => c | None => EmptyString end ++ s).

(* ------------------------------------------------------------------ *)
(** ** File headers and entry formats *)

Definition short_term_header : string :=
  "# Short-term memory for current session" ++ nl ++
  "# Stores up to 10 message pairs before summarization" ++ nl ++ nl.

Definition long_term_header : string :=
  "# Long-term memory for previous sessions" ++ nl ++
  "# Stores summaries of past conversations" ++ nl ++ nl.

(** The three writes of [summarize_short_term_memory]. *)
Definition short_term_entry (timestamp summary : string) : string :=
  nl ++ "--- Summary (" ++ timestamp ++ ") ---" ++ nl ++
  summary ++ nl ++
  dash50 ++ nl.

(** The opening marker line written by [save_to_long_term_memory]. *)
Definition session_marker (session_date timestamp : string) : string :=
  "=== Session Summary (" ++ session_date ++ ") - " ++ timestamp ++ " ===".

(** The three writes of [save_to_long_term_memory]. *)
Definition long_term_entry (session_date timestamp summary : string) : string :=
  nl ++ session_marker session_date timestamp ++ nl ++
  summary ++ nl ++
  eq_line ++ nl.

(** [_ensure_memory_files] *)
Definition ensure_memory_files (fs : Files) : Files :=
  mkFiles
    (match short_term_file fs with Some c => Some c | None => Some short_term_header end)
    (match long_term_file fs with Some c => Some c | None => Some long_term_header end).

(** [__init__] (after the configuration has been read). *)
Definition init (limit sessions : Z) (fs : Files) : MM :=
  mkMM [] 0 limit sessions (ensure_memory_files fs).

(* ------------------------------------------------------------------ *)
(** ** Operations *)

(** [role_label = "User" if msg["role"] == "user" else "Assistant"] *)
Definition role_label (m : Msg) : string :=
  if String.eqb (role m) "user" then "User" else "Assistant".

(** One [f"{role_label}: {msg['content']}\n"] line per message. *)
Definition render_msgs (l : list Msg) : string :=
  fold_left (fun acc m => acc ++ role_label m ++ ": " ++ content m ++ nl) l EmptyString.

(** [add_message] *)
Definition add_message (r c : string) (st : MM) : MM :=
  set_buffer st (app (message_buffer st) [mkMsg r c])
    (if String.eqb r "user" then message_counter st + 1 else message_counter st)%Z.

(** [should_summarize]: the state is returned to make explicit that the
    call leaves it as it is. *)
Definition should_summarize (st : MM) : bool * MM :=
  ((short_term_limit st <=? message_counter st)%Z, st).

(** The user prompt of the short-term summarization call. *)
Definition short_term_prompt (st : MM) : string :=
  let to_summarize := slice_from (- short_term_limit st) (message_buffer st) in
  let transcript := "Conversation Transcript:" ++ nl ++ render_msgs to_summarize in
  "Summarize this conversation batch, focusing on meals discussed, " ++
  "any new preferences/allergies mentioned, and the recommended macro split." ++ nl ++ nl ++
  transcript ++ nl ++ nl ++ "Provide a concise summary:".

(** [summarize_short_term_memory(llm)].  [llm] maps the prompt to the
    completion; [timestamp] is [strftime("%Y-%m-%d %H:%M:%S")]; [write_ok]
    says whether the append to the short-term file succeeds. *)
Definition summarize_short_term_memory (llm : string -> string)
    (timestamp : string) (write_ok : bool) (st : MM) : outcome string * MM :=
  if is_nil (message_buffer st) then (Ret EmptyString, st)
  else
    let summary := llm (short_term_prompt st) in
    if write_ok then
      let st1 := set_short st (append_file (short_term_file (files st))
                                 (short_term_entry timestamp summary)) in
      (Ret summary, set_buffer st1 [] 0%Z)
    else (Raise, st).

(** [not content.strip() or content.strip().startswith("#")] *)
Definition no_content (c : string) : bool :=
  String.eqb (strip c) EmptyString || startswith "#" (strip c).

Definition long_term_prompt (short_term_content : string) : string :=
  "Consolidate this short-term history into key long-term dietary trends, " ++
  "macro compliance, and persistent recommendations." ++ nl ++ nl ++
  short_term_content ++ nl ++ nl ++
  "Provide a comprehensive summary focusing on:" ++ nl ++
  "- Key dietary trends and patterns" ++ nl ++
  "- Macro compliance over time" ++ nl ++
  "- Persistent recommendations and preferences" ++ nl ++
  "- Important health-related notes:".

(** [save_to_long_term_memory(llm)].  [lt_ok] is the success of the append
    to the long-term file, [st_ok] that of the rewrite of the short-term
    file. *)
Definition save_to_long_term_memory (llm : string -> string)
    (session_date timestamp : string) (lt_ok st_ok : bool) (st : MM)
    : outcome unit * MM :=
  match short_term_file (files st) with
  | None => (Ret tt, st)
  | Some short_term_content =>
      if no_content short_term_content then (Ret tt, st)
      else
        let summary := llm (long_term_prompt short_term_content) in
        if lt_ok then
          let st1 := set_long st (append_file (long_term_file (files st))
                       (long_term_entry session_date timestamp summary)) in
          if st_ok then
            (Ret tt, set_buffer (set_short st1 (Some short_term_header)) [] 0%Z)
          else (Raise, st1)
        else (Raise, st)
  end.

(** The state of the scan over the lines of the long-term file. *)
Record ParseSt := mkParseSt {
  sessions : list string;
  current_session : list string;
  in_session : bool }.

(** One iteration of the [for line in content.split('\n')] loop. *)
Definition parse_step (p : ParseSt) (line : string) : ParseSt :=
  if startswith "===" line && contains "Session Summary" line then
    mkParseSt
      (if negb (is_nil (current_session p)) && in_session p
       then app (sessions p) [join_nl (current_session p)] else sessions p)
      [line] true
  else if in_session p then
    let cur := app (current_session p) [line] in
    if startswith eq_line line then mkParseSt (app (sessions p) [join_nl cur]) [] false
    else mkParseSt (sessions p) cur true
  else p.

Definition parse_sessions (content : string) : list string :=
  sessions (fold_left parse_step (split_nl content) (mkParseSt [] [] false)).

(** The context block built from the selected sessions. *)
Definition format_context (recent : list string) : string :=
  fold_left (fun acc s => acc ++ s ++ nl ++ nl) recent
    ("Previous Session Summaries:" ++ nl ++ dash60 ++ nl).

(** [load_long_term_memory_context] *)
Definition load_long_term_memory_context (st : MM) : string :=
  match long_term_file (files st) with
  | None => EmptyString
  | Some c =>
      if no_content c then EmptyString
      else
        let ss := parse_sessions c in
        let recent := if is_nil ss then [] else slice_from (- long_term_sessions st) ss in
        if is_nil recent then EmptyString else format_context recent
  end.

(** [get_short_term_memory_context] *)
Definition get_short_term_memory_context (st : MM) : string :=
  if is_nil (message_buffer st) then
    match short_term_file (files st) with
    | Some c =>
        if negb (String.eqb c EmptyString) && negb (startswith "#" (strip c))
        then c else EmptyString
    | None => EmptyString
    end
  else "Current Session Messages:" ++ nl ++ render_msgs (message_buffer st).

(** [clear_short_term_memory]: the buffer is reset before the file is
    rewritten. *)
Definition clear_short_term_memory (write_ok : bool) (st : MM) : outcome unit * MM :=
  let st1 := set_buffer st [] 0%Z in
  if write_ok then (Ret tt, set_short st1 (Some short_term_header)) else (Raise, st1).

(** [get_long_term_history] *)
Definition get_long_term_history (st : MM) : string :=
  match long_term_file (files st) with
  | None => "No long-term memory found."
  | Some c => if no_content c then "No previous session summaries found." else c
  end.

(** A run of [add_message] calls, in order. *)
Definition run_adds (msgs : list (string * string)) (st : MM) : MM :=
  fold_left (fun s rc => add_message (fst rc) (snd rc) s) msgs st.

(** Number of [role == "user"] entries. *)
Definition count_user (msgs : list (string * string)) : nat :=
  length (filter (fun rc => String.eqb (fst rc) "user") msgs).

Definition count_user_msgs (b : list Msg) : nat :=
  length (filter (fun m => String.eqb (role m) "user") b).

(** The counter invariant of the session buffer. *)
Definition counter_inv (st : MM) : Prop :=
  message_counter st = Z.of_nat (count_user_msgs (message_buffer st)).

(* ------------------------------------------------------------------ *)
(** ** Long-term file layout *)

(** Whether a string holds a newline. *)
Fixpoint has_nl (s : string) : bool :=
  match s with
  | EmptyString => false
  | String c r => Ascii.eqb c (ascii_of_nat 10) || has_nl r
  end.

(** What one long-term entry looks like once [load_long_term_memory_context]
    has split it out: marker line, summary, closing line, joined by
    newlines. *)
Definition entry_body (session_date timestamp summary : string) : string :=
  session_marker session_date timestamp ++ nl ++ summary ++ nl ++ eq_line.

(** The text of a sequence of [save_to_long_term_memory] appends. *)
Fixpoint entries_text (es : list (string * string * string)) : string :=
  match es with
  | [] => EmptyString
  | (d, t, s) :: r => long_term_entry d t s ++ entries_text r
  end.

Definition body_of (e : string * string * string) : string :=
  let '(d, t, s) := e in entry_body d t s.

(** A line the scan in [load_long_term_memory_context] treats as plain
    text: neither an opening marker nor a closing line. *)
Definition line_ok (line : string) : bool :=
  negb (startswith "===" line && contains "Session Summary" line) &&
  negb (startswith eq_line line).

(** The conditions under which an appended entry can be scanned back:
    date and timestamp on one line, no summary line mistaken for a
    delimiter. *)
Definition entry_ok (e : string * string * string) : bool :=
  let '(d, t, s) := e in
  negb (has_nl d) && negb (has_nl t) && forallb line_ok (split_nl s).

(* ------------------------------------------------------------------ *)
(** ** The caller: [DietAI] in src/DietAI/main.py

    Console output is not modelled; only the effect of each step on the
    memory manager and whether the loop goes on. *)

(** [str.lower()] on ASCII: A-Z to a-z, every other character kept. *)
Definition lower_char (c : ascii) : ascii :=
  let n := nat_of_ascii c in
  if ((65 <=? n) && (n <=? 90))%nat then ascii_of_nat (n + 32) else c.

Fixpoint lower (s : string) : string :=
  match s with
  | EmptyString => EmptyString
  | String c r => String (lower_char c) (lower r)
  end.

Definition emergency_keywords : list string :=
  ["anorexia"; "suicide"; "severe pain"; "chest pain";
   "heart attack"; "stroke"; "emergency"; "dying"].

(** [_check_emergency_keywords] *)
Definition check_emergency_keywords (user_input : string) : bool :=
  let user_lower := lower user_input in
  existsb (fun keyword => contains keyword user_lower) emergency_keywords.

(** [_build_complete_prompt(user_query)]: [system_content] is
    [_build_system_prompt() + _build_personal_context()], [long_term_context]
    the string loaded at start-up. *)
Definition build_complete_prompt (system_content long_term_context : string)
    (st : MM) (user_query : string) : list Msg :=
  let short_term_memory := get_short_term_memory_context st in
  app [mkMsg "system" system_content]
  (app (if String.eqb long_term_context EmptyString then []
        else [mkMsg "system" (nl ++ nl ++ "LONG-TERM MEMORY:" ++ nl ++ long_term_context)])
  (app (if String.eqb short_term_memory EmptyString then []
        else [mkMsg "system" (nl ++ nl ++ short_term_memory)])
  [mkMsg "user" user_query])).

(** What the environment supplies to one step of the loop: the streamed
    reply of the chat call, the summarizing completions, the clock, and
    whether the writes to each file succeed. *)
Record Env := mkEnv {
  reply : string;
  llm : string -> string;
  session_date : string;
  now_timestamp : string;
  short_write_ok : bool;
  long_write_ok : bool }.

(** [chat(user_message)], from the point where the reply is complete. *)
Definition chat (env : Env) (user_message : string) (st : MM) : outcome string * MM :=
  let st1 := add_message "assistant" (reply env) (add_message "user" user_message st) in
  if fst (should_summarize st1) then
    match summarize_short_term_memory (llm env) (now_timestamp env) (short_write_ok env) st1 with
    | (Ret _, st2) => (Ret (reply env), st2)
    | (Raise, st2) => (Raise, st2)
    end
  else (Ret (reply env), st1).

Inductive loop_result := Continue | Break.

(** One iteration of the [while True] loop of [run], for the input line
    [line]; an exception is caught by [except Exception] and the loop goes
    on. *)
Definition run_step (env : Env) (line : string) (st : MM) : loop_result * MM :=
  let user_input := strip line in
  if String.eqb user_input EmptyString then (Continue, st)
  else if startswith "/" user_input then
    let cmd := lower user_input in
    if String.eqb cmd "/exit" then
      match save_to_long_term_memory (llm env) (session_date env) (now_timestamp env)
              (long_write_ok env) (short_write_ok env) st with
      | (Ret _, st') => (Break, st')
      | (Raise, st') => (Continue, st')
      end
    else if String.eqb cmd "/clear" then
      (Continue, snd (clear_short_term_memory (short_write_ok env) st))
    else (Continue, st)
  else if check_emergency_keywords user_input then (Continue, st)
  else (Continue, snd (chat env user_input st)).

(* ------------------------------------------------------------------ *)
(** ** Helper lemmas *)

Lemma strip_hash (r : string) : startswith "#" (strip (String "#" r)) = true.
Proof.
  unfold strip; simpl lstrip; simpl rstrip.
  destruct (rstrip r); reflexivity.
Qed.

Lemma no_content_hash (r : string) : no_content (String "#" r) = true.
Proof. unfold no_content; rewrite strip_hash; apply orb_true_r. Qed.

Lemma short_term_header_hash (rest : string) :
  exists r, short_term_header ++ rest = String "#" r.
Proof. eexists; reflexivity. Qed.

Lemma long_term_header_hash (rest : string) :
  exists r, long_term_header ++ rest = String "#" r.
Proof. eexists; reflexivity. Qed.

Lemma no_content_short_header (rest : string) :
  no_content (short_term_header ++ rest) = true.
Proof. destruct (short_term_header_hash rest) as [r ->]; apply no_content_hash. Qed.

Lemma no_content_long_header (rest : string) :
  no_content (long_term_header ++ rest) = true.
Proof. destruct (long_term_header_hash rest) as [r ->]; apply no_content_hash. Qed.

Lemma count_user_msgs_app (b : list Msg) (m : Msg) :
  count_user_msgs (app b [m]) =
  (count_user_msgs b + if String.eqb (role m) "user" then 1 else 0)%nat.
Proof.
  unfold count_user_msgs; rewrite filter_app, length_app; simpl.
  destruct (String.eqb (role m) "user"); reflexivity.
Qed.

Lemma counter_inv_reset (st : MM) : counter_inv (set_buffer st [] 0%Z).
Proof. reflexivity. Qed.

Lemma counter_inv_set_short (st : MM) (f : option string) :
  counter_inv st -> counter_inv (set_short st f).
Proof. unfold counter_inv; simpl; auto. Qed.

Lemma counter_inv_set_long (st : MM) (f : option string) :
  counter_inv st -> counter_inv (set_long st f).
Proof. unfold counter_inv; simpl; auto. Qed.

Lemma run_adds_app (l1 l2 : list (string * string)) (st : MM) :
  run_adds (app l1 l2) st = run_adds l2 (run_adds l1 st).
Proof. unfold run_adds; apply fold_left_app. Qed.

Lemma run_adds_config (msgs : list (string * string)) (st : MM) :
  short_term_limit (run_adds msgs st) = short_term_limit st.
Proof.
  revert st; induction msgs as [|rc msgs IH]; intro st; simpl; [reflexivity|].
  rewrite IH; reflexivity.
Qed.

Lemma run_adds_counter (msgs : list (string * string)) (st : MM) :
  message_counter (run_adds msgs st) =
  (message_counter st + Z.of_nat (count_user msgs))%Z.
Proof.
  revert st; induction msgs as [|[r c] msgs IH]; intro st; simpl.
  - lia.
  - rewrite IH; unfold count_user; simpl.
    destruct (String.eqb r "user"); simpl; fold (count_user msgs); lia.
Qed.

(* ------------------------------------------------------------------ *)
(** ** Claims *)

(** C1 (code_bug): whenever the short-term file starts with the header that
    [_ensure_memory_files] and every reset write, whatever follows it (in
    particular real summary entries), [save_to_long_term_memory] returns at
    its "no meaningful content" test: no long-term entry is appended, the
    short-term file is not reset, and the state is unchanged. *)
Theorem save_to_long_term_memory_skips_headed_store :
  forall (llm : string -> string) (session_date timestamp : string)
         (lt_ok st_ok : bool) (buf : list Msg) (cnt lim ses : Z)
         (rest : string) (lt : option string),
    let st := mkMM buf cnt lim ses (mkFiles (Some (short_term_header ++ rest)) lt) in
    save_to_long_term_memory llm session_date timestamp lt_ok st_ok st = (Ret tt, st).
Proof.
  intros; subst st; unfold save_to_long_term_memory; cbn [files short_term_file].
  rewrite no_content_short_header; reflexivity.
Qed.

(** The situation of C1 arises in a session: a fresh manager, one
    summarized batch, then consolidation leaves both files as they were. *)
Definition scenario_after_summary : MM :=
  snd (summarize_short_term_memory (fun _ => "Oatmeal with berries.")
         "2026-10-19 12:00:00" true
         (run_adds [("user", "What's a good breakfast?");
                    ("assistant", "Oatmeal with berries, 30g protein...")]
            (init 1 3 (mkFiles None None)))).

Lemma scenario_after_summary_files :
  files scenario_after_summary =
  mkFiles (Some (short_term_header ++
                 short_term_entry "2026-10-19 12:00:00" "Oatmeal with berries."))
          (Some long_term_header).
Proof. reflexivity. Qed.

(** C2 (code_bug): a long-term file that starts with its header yields the
    empty context whatever entries follow it; e.g. the header followed by
    one entry parses to K = 1 session, yet with cap C = 3 nothing is
    returned.  Separately, a cap of 0 returns every session ([sessions[-0:]]
    is the whole list). *)
Theorem load_long_term_memory_context_drops_headed_store :
  (forall (buf : list Msg) (cnt lim ses : Z) (sf : option string) (rest : string),
     load_long_term_memory_context
       (mkMM buf cnt lim ses (mkFiles sf (Some (long_term_header ++ rest)))) = EmptyString) /\
  (let c := long_term_header ++ long_term_entry "2026-10-19" "2026-10-19 12:00:00" "Eat more protein." in
   length (parse_sessions c) = 1%nat /\
   load_long_term_memory_context (mkMM [] 0 10 3 (mkFiles None (Some c))) = EmptyString) /\
  (let c := long_term_entry "2026-10-18" "2026-10-18 09:00:00" "A" ++
            long_term_entry "2026-10-19" "2026-10-19 09:00:00" "B" in
   load_long_term_memory_context (mkMM [] 0 10 0 (mkFiles None (Some c))) =
   format_context (parse_sessions c) /\ length (parse_sessions c) = 2%nat).
Proof.
  split; [|split].
  - intros; unfold load_long_term_memory_context; cbn [files long_term_file].
    rewrite no_content_long_header; reflexivity.
  - split; vm_compute; reflexivity.
  - split; vm_compute; reflexivity.
Qed.

(** C3 (code_bug): writing an entry to the long-term file as created by
    [_ensure_memory_files] and re-reading it with
    [load_long_term_memory_context] recovers nothing, for every summary. *)
Theorem long_term_round_trip_loses_entry :
  forall (summary session_date timestamp : string) (ses : Z),
    let st := set_long (init 10 ses (mkFiles None None))
                (append_file (long_term_file (files (init 10 ses (mkFiles None None))))
                   (long_term_entry session_date timestamp summary)) in
    load_long_term_memory_context st = EmptyString.
Proof.
  intros; subst st; unfold load_long_term_memory_context; cbn [set_long files long_term_file init ensure_memory_files append_file].
  rewrite no_content_long_header; reflexivity.
Qed.

(** C4 (code_bug): with an empty buffer, a short-term file that starts
    with its header gives the empty context, whatever summaries follow. *)
Theorem get_short_term_memory_context_drops_headed_store :
  forall (cnt lim ses : Z) (rest : string) (lt : option string),
    get_short_term_memory_context
      (mkMM [] cnt lim ses (mkFiles (Some (short_term_header ++ rest)) lt)) = EmptyString.
Proof.
  intros; unfold get_short_term_memory_context; cbn [message_buffer is_nil files short_term_file].
  destruct (short_term_header_hash rest) as [r Hr]; rewrite Hr.
  rewrite strip_hash; simpl; reflexivity.
Qed.

(** C5 (code_bug): a long-term file that starts with its header gives the
    "no summaries" sentinel, whatever entries follow; an absent file gives
    "No long-term memory found.". *)
Theorem get_long_term_history_headed_store :
  forall (buf : list Msg) (cnt lim ses : Z) (sf : option string) (rest : string),
    get_long_term_history
      (mkMM buf cnt lim ses (mkFiles sf (Some (long_term_header ++ rest)))) =
      "No previous session summaries found." /\
    get_long_term_history (mkMM buf cnt lim ses (mkFiles sf None)) =
      "No long-term memory found.".
Proof.
  intros; unfold get_long_term_history; cbn [files long_term_file].
  rewrite no_content_long_header; split; reflexivity.
Qed.

(** C6: with a non-empty buffer and a successful append, short-term
    summarization returns the completion, empties the buffer, sets the
    counter to 0, appends exactly one entry (marker, summary, separator)
    to the short-term file, and leaves the long-term file alone. *)
Theorem summarize_short_term_memory_appends_one_entry :
  forall (llm : string -> string) (timestamp : string) (st : MM),
    message_buffer st <> [] ->
    let summary := llm (short_term_prompt st) in
    let '(r, st') := summarize_short_term_memory llm timestamp true st in
    r = Ret summary /\
    message_buffer st' = [] /\ message_counter st' = 0%Z /\
    short_term_file (files st') =
      append_file (short_term_file (files st)) (short_term_entry timestamp summary) /\
    long_term_file (files st') = long_term_file (files st).
Proof.
  intros llm timestamp st Hne; unfold summarize_short_term_memory.
  destruct (message_buffer st) eqn:Hb; [contradiction|].
  simpl; repeat split; reflexivity.
Qed.

Lemma summarize_short_term_memory_appends_one_entry_witness :
  let st := run_adds [("user", "What's a good breakfast?");
                      ("assistant", "Oatmeal with berries, 30g protein...")]
              (init 3 3 (mkFiles None None)) in
  message_buffer st <> [] /\
  (let summary := (fun _ : string => "Oatmeal.") (short_term_prompt st) in
   let '(r, st') := summarize_short_term_memory (fun _ => "Oatmeal.") "2026-10-19 12:00:00" true st in
   r = Ret summary /\
   message_buffer st' = [] /\ message_counter st' = 0%Z /\
   short_term_file (files st') =
     append_file (short_term_file (files st)) (short_term_entry "2026-10-19 12:00:00" summary) /\
   long_term_file (files st') = long_term_file (files st)).
Proof.
  intro st; split.
  - subst st; simpl; discriminate.
  - apply (summarize_short_term_memory_appends_one_entry (fun _ => "Oatmeal.")
             "2026-10-19 12:00:00" st).
    subst st; simpl; discriminate.
Defined.

(** C7: starting from a fresh manager, after any sequence of
    [add_message] calls holding N user messages, [should_summarize] is
    false while N < short_term_limit and true once N = short_term_limit;
    the call does not change the state. *)
Theorem should_summarize_threshold :
  forall (limit ses : Z) (fs : Files) (msgs : list (string * string)),
    let st := run_adds msgs (init limit ses fs) in
    ((Z.of_nat (count_user msgs) < limit)%Z -> fst (should_summarize st) = false) /\
    (Z.of_nat (count_user msgs) = limit -> fst (should_summarize st) = true) /\
    snd (should_summarize st) = st.
Proof.
  intros limit ses fs msgs st; subst st; unfold should_summarize; simpl.
  rewrite run_adds_config, run_adds_counter; simpl.
  repeat split; intro H; [apply Z.leb_gt | apply Z.leb_le]; lia.
Qed.

Lemma should_summarize_threshold_witness :
  let msgs := [("user", "What's a good breakfast?");
               ("assistant", "Oatmeal with berries, 30g protein...");
               ("user", "What's a good breakfast?");
               ("assistant", "Oatmeal with berries, 30g protein...");
               ("user", "What's a good breakfast?")] in
  fst (should_summarize (run_adds msgs (init 3 3 (mkFiles None None)))) = true /\
  fst (should_summarize (run_adds (firstn 4 msgs) (init 3 3 (mkFiles None None)))) = false.
Proof.
  intro msgs; split.
  - apply (should_summarize_threshold 3 3 (mkFiles None None) msgs).
    vm_compute; reflexivity.
  - apply (should_summarize_threshold 3 3 (mkFiles None None) (firstn 4 msgs)).
    vm_compute; reflexivity.
Defined.

(** C8: every operation preserves "counter = number of buffered messages
    whose role is exactly user", whatever the role strings, the completions,
    the clock and the success of the file writes. *)
Theorem counter_inv_preserved :
  forall st : MM, counter_inv st ->
    (forall r c, counter_inv (add_message r c st)) /\
    (forall llm ts ok, counter_inv (snd (summarize_short_term_memory llm ts ok st))) /\
    (forall llm d ts lt_ok st_ok,
       counter_inv (snd (save_to_long_term_memory llm d ts lt_ok st_ok st))) /\
    (forall ok, counter_inv (snd (clear_short_term_memory ok st))).
Proof.
  intros st H; split; [|split; [|split]].
  - intros r c; unfold counter_inv, add_message; simpl.
    rewrite count_user_msgs_app; simpl; rewrite H.
    destruct (String.eqb r "user"); lia.
  - intros llm ts ok; unfold summarize_short_term_memory.
    destruct (is_nil (message_buffer st)); [exact H|].
    destruct ok; [apply counter_inv_reset | exact H].
  - intros llm d ts lt_ok st_ok; unfold save_to_long_term_memory.
    destruct (short_term_file (files st)) as [c|]; [|exact H].
    destruct (no_content c); [exact H|].
    destruct lt_ok; [|exact H].
    destruct st_ok; [apply counter_inv_reset|].
    apply counter_inv_set_long; exact H.
  - intros ok; unfold clear_short_term_memory.
    destruct ok; [apply counter_inv_set_short|]; apply counter_inv_reset.
Qed.

Lemma counter_inv_preserved_witness :
  counter_inv (add_message "tool" "x" (add_message "user" "hi" (init 2 3 (mkFiles None None)))).
Proof.
  apply (counter_inv_preserved (add_message "user" "hi" (init 2 3 (mkFiles None None)))).
  reflexivity.
Defined.

(** C9: when the append to the short-term file fails, summarization raises
    and leaves the buffer and the counter (indeed the whole state) as they
    were. *)
Theorem summarize_short_term_memory_write_failure :
  forall (llm : string -> string) (timestamp : string) (st : MM),
    message_buffer st <> [] ->
    let '(r, st') := summarize_short_term_memory llm timestamp false st in
    r = Raise /\ message_buffer st' = message_buffer st /\
    message_counter st' = message_counter st.
Proof.
  intros llm timestamp st Hne; unfold summarize_short_term_memory.
  destruct (message_buffer st) eqn:Hb; [contradiction|].
  simpl; rewrite Hb; repeat split; reflexivity.
Qed.

Lemma summarize_short_term_memory_write_failure_witness :
  let st := add_message "user" "hi" (init 3 3 (mkFiles None None)) in
  let '(r, st') := summarize_short_term_memory (fun _ => "S") "t" false st in
  r = Raise /\ message_buffer st' = message_buffer st /\
  message_counter st' = message_counter st.
Proof.
  apply (summarize_short_term_memory_write_failure (fun _ => "S") "t").
  simpl; discriminate.
Defined.

(** C10: with an empty buffer, short-term summarization returns the empty
    string and leaves the state, hence both files, as it is; the result
    does not depend on the inference engine. *)
Theorem summarize_short_term_memory_empty_buffer :
  forall (llm : string -> string) (timestamp : string) (ok : bool) (st : MM),
    message_buffer st = [] ->
    summarize_short_term_memory llm timestamp ok st = (Ret EmptyString, st).
Proof.
  intros llm timestamp ok st Hb; unfold summarize_short_term_memory.
  rewrite Hb; reflexivity.
Qed.

Lemma summarize_short_term_memory_empty_buffer_witness :
  summarize_short_term_memory (fun _ => "S") "t" true (init 3 3 (mkFiles None None)) =
  (Ret EmptyString, init 3 3 (mkFiles None None)).
Proof.
  apply (summarize_short_term_memory_empty_buffer (fun _ => "S") "t" true).
  reflexivity.
Defined.

(* ------------------------------------------------------------------ *)
(** ** Lemmas on the text primitives and the long-term scan *)

Lemma str_app_assoc (a b c : string) : (a ++ b) ++ c = a ++ (b ++ c).
Proof. induction a as [|x a IH]; simpl; [reflexivity | now rewrite IH]. Qed.

Lemma str_app_nil_r (a : string) : a ++ EmptyString = a.
Proof. induction a as [|x a IH]; simpl; [reflexivity | now rewrite IH]. Qed.

Lemma split_nl_nonempty (s : string) : split_nl s <> [].
Proof.
  destruct s as [|c r]; simpl; [discriminate|].
  destruct (Ascii.eqb c (ascii_of_nat 10)); [discriminate|].
  destruct (split_nl r); discriminate.
Qed.

Lemma split_nl_app_nl (a b : string) :
  split_nl (a ++ nl ++ b) = app (split_nl a) (split_nl b).
Proof.
  induction a as [|c r IH]; [reflexivity|].
  cbn [append split_nl]. rewrite IH.
  destruct (Ascii.eqb c (ascii_of_nat 10)); [reflexivity|].
  destruct (split_nl r) eqn:E; [now apply split_nl_nonempty in E|].
  reflexivity.
Qed.

Lemma has_nl_app (a b : string) : has_nl (a ++ b) = has_nl a || has_nl b.
Proof.
  induction a as [|c r IH]; simpl; [reflexivity|].
  now rewrite IH, orb_assoc.
Qed.

Lemma split_nl_no_nl (s : string) : has_nl s = false -> split_nl s = [s].
Proof.
  induction s as [|c r IH]; simpl; [reflexivity|].
  intro H; apply orb_false_iff in H as [Hc Hr].
  rewrite Hc, IH by exact Hr; reflexivity.
Qed.

Lemma concat_nl_cons_char (c : ascii) (h : string) (t : list string) :
  String.concat nl (String c h :: t) = String c (String.concat nl (h :: t)).
Proof. destruct t; reflexivity. Qed.

(** ['\n'.join(s.split('\n')) == s] *)
Lemma join_split_nl (s : string) : join_nl (split_nl s) = s.
Proof.
  unfold join_nl; induction s as [|c r IH]; [reflexivity|].
  cbn [split_nl].
  destruct (Ascii.eqb c (ascii_of_nat 10)) eqn:Ec.
  - apply Ascii.eqb_eq in Ec; subst c.
    destruct (split_nl r) as [|h t] eqn:E; [now apply split_nl_nonempty in E|].
    change (String.concat nl (EmptyString :: h :: t)) with (nl ++ String.concat nl (h :: t)).
    rewrite IH; reflexivity.
  - destruct (split_nl r) eqn:E; [now apply split_nl_nonempty in E|].
    rewrite concat_nl_cons_char, IH; reflexivity.
Qed.

Lemma has_nl_marker (d t : string) :
  has_nl d = false -> has_nl t = false -> has_nl (session_marker d t) = false.
Proof.
  intros Hd Ht; unfold session_marker.
  rewrite !has_nl_app, Hd, Ht; reflexivity.
Qed.

Lemma marker_is_marker (d t : string) :
  startswith "===" (session_marker d t) && contains "Session Summary" (session_marker d t) = true.
Proof. reflexivity. Qed.

Lemma parse_step_ok_out (p : ParseSt) (line : string) :
  in_session p = false -> line_ok line = true -> parse_step p line = p.
Proof.
  intros Hin Hok; unfold line_ok in Hok; apply andb_true_iff in Hok as [H1 _].
  apply negb_true_iff in H1; unfold parse_step; rewrite H1, Hin; reflexivity.
Qed.

Lemma parse_fold_out (lines : list string) (p : ParseSt) :
  in_session p = false -> forallb line_ok lines = true ->
  fold_left parse_step lines p = p.
Proof.
  revert p; induction lines as [|l ls IH]; intros p Hin Hok; [reflexivity|].
  simpl in Hok; apply andb_true_iff in Hok as [H1 H2]; simpl.
  rewrite parse_step_ok_out by assumption; apply IH; assumption.
Qed.

Lemma parse_fold_in (lines : list string) (ss cur : list string) :
  forallb line_ok lines = true ->
  fold_left parse_step lines (mkParseSt ss cur true) = mkParseSt ss (app cur lines) true.
Proof.
  revert cur; induction lines as [|l ls IH]; intros cur Hok.
  - now rewrite app_nil_r.
  - simpl in Hok; apply andb_true_iff in Hok as [H1 H2]; simpl.
    unfold line_ok in H1; apply andb_true_iff in H1 as [Ha Hb].
    apply negb_true_iff in Ha; apply negb_true_iff in Hb.
    unfold parse_step at 2; rewrite Ha, Hb; cbn [in_session current_session sessions].
    rewrite IH by assumption; now rewrite <- app_assoc.
Qed.

Lemma split_long_term_entry (d t s r : string) :
  has_nl d = false -> has_nl t = false ->
  split_nl (long_term_entry d t s ++ r) =
  EmptyString :: session_marker d t :: app (split_nl s) (eq_line :: split_nl r).
Proof.
  intros Hd Ht; unfold long_term_entry.
  rewrite !str_app_assoc.
  change (nl ++ ?x) with (EmptyString ++ nl ++ x).
  rewrite split_nl_app_nl, split_nl_app_nl, split_nl_app_nl, split_nl_app_nl.
  rewrite (split_nl_no_nl (session_marker d t)) by (apply has_nl_marker; assumption).
  rewrite (split_nl_no_nl eq_line) by reflexivity.
  reflexivity.
Qed.

Lemma eq_line_not_marker :
  startswith "===" eq_line && contains "Session Summary" eq_line = false.
Proof. reflexivity. Qed.

Lemma parse_entries (es : list (string * string * string)) (ss : list string) :
  forallb entry_ok es = true ->
  fold_left parse_step (split_nl (entries_text es)) (mkParseSt ss [] false) =
  mkParseSt (app ss (map body_of es)) [] false.
Proof.
  revert ss; induction es as [|[[d t] s] r IH]; intros ss Hok.
  - now rewrite app_nil_r.
  - simpl in Hok; apply andb_true_iff in Hok as [He Hr].
    unfold entry_ok in He; apply andb_true_iff in He as [He Hs].
    apply andb_true_iff in He as [Hd Ht]; apply negb_true_iff in Hd, Ht.
    cbn [entries_text]; rewrite split_long_term_entry by assumption.
    cbn [fold_left].
    change (parse_step (mkParseSt ss [] false) EmptyString) with (mkParseSt ss [] false).
    unfold parse_step at 2; rewrite marker_is_marker; cbn [is_nil current_session in_session andb negb].
    rewrite fold_left_app, parse_fold_in by assumption; cbn [fold_left].
    unfold parse_step at 2; rewrite eq_line_not_marker; cbn [in_session current_session sessions].
    replace (startswith eq_line eq_line) with true by reflexivity.
    rewrite IH by assumption; cbn [map].
    replace (join_nl (app (app [session_marker d t] (split_nl s)) [eq_line])) with (entry_body d t s).
    + now rewrite <- app_assoc.
    + unfold entry_body; rewrite <- (join_split_nl (session_marker d t ++ nl ++ s ++ nl ++ eq_line)).
      rewrite split_nl_app_nl, split_nl_app_nl.
      rewrite (split_nl_no_nl (session_marker d t)) by (apply has_nl_marker; assumption).
      rewrite (split_nl_no_nl eq_line) by reflexivity.
      now rewrite <- app_assoc.
Qed.

Lemma parse_sessions_pre_entries (pre : string) (es : list (string * string * string)) :
  forallb line_ok (split_nl pre) = true -> forallb entry_ok es = true ->
  parse_sessions (pre ++ entries_text es) = map body_of es.
Proof.
  intros Hpre Hes; unfold parse_sessions.
  destruct es as [|[[d t] s] r].
  - cbn [entries_text map]; rewrite str_app_nil_r, parse_fold_out; [reflexivity | reflexivity | assumption].
  - pose proof (parse_entries ((d, t, s) :: r) [] Hes) as H.
    cbn [entries_text] in H |- *.
    unfold long_term_entry in H |- *; rewrite !str_app_assoc in H |- *.
    rewrite split_nl_app_nl, fold_left_app.
    rewrite (parse_fold_out (split_nl pre)) by (assumption || reflexivity).
    change (nl ++ ?x) with (EmptyString ++ nl ++ x) in H.
    rewrite split_nl_app_nl in H; cbn [split_nl app fold_left] in H.
    change (parse_step (mkParseSt [] [] false) EmptyString) with (mkParseSt [] [] false) in H.
    rewrite H; reflexivity.
Qed.

Lemma rstrip_keeps_head (c : ascii) (r : string) :
  is_space c = false -> exists r', rstrip (String c r) = String c r'.
Proof.
  intro Hc; cbn [rstrip]; destruct (rstrip r) as [|x y].
  - rewrite Hc; eexists; reflexivity.
  - eexists; reflexivity.
Qed.

Lemma no_content_entries (e : string * string * string) (r : list (string * string * string)) :
  no_content (entries_text (e :: r)) = false.
Proof.
  destruct e as [[d t] s]; unfold no_content, strip.
  replace (entries_text ((d, t, s) :: r)) with
    (String (ascii_of_nat 10) (String "=" (("== Session Summary (" ++ d ++ ") - " ++ t ++ " ===" ++
       nl ++ s ++ nl ++ eq_line ++ nl) ++ entries_text r))).
  2:{ cbn [entries_text]; unfold long_term_entry, session_marker; rewrite !str_app_assoc; reflexivity. }
  cbn [lstrip]. replace (is_space (ascii_of_nat 10)) with true by reflexivity.
  cbn [lstrip]. replace (is_space "=") with false by reflexivity.
  destruct (rstrip_keeps_head "=" (("== Session Summary (" ++ d ++ ") - " ++ t ++ " ===" ++
       nl ++ s ++ nl ++ eq_line ++ nl) ++ entries_text r) eq_refl) as [r' ->].
  reflexivity.
Qed.

Lemma slice_from_neg {A} (k : Z) (l : list A) :
  (0 < k)%Z -> slice_from (- k) l = skipn (length l - Z.to_nat k) l.
Proof.
  intro Hk; unfold slice_from.
  replace (- k <? 0)%Z with true by (symmetry; apply Z.ltb_lt; lia).
  f_equal; lia.
Qed.

Lemma slice_from_zero {A} (l : list A) : slice_from (- 0) l = l.
Proof. unfold slice_from; simpl; rewrite Z.min_l by lia; reflexivity. Qed.

Lemma prefix_app (p s b : string) : String.prefix p s = true -> String.prefix p (s ++ b) = true.
Proof.
  revert s; induction p as [|c p IH]; intros s H; [destruct (s ++ b); reflexivity|].
  destruct s as [|x s]; [discriminate|].
  simpl in *; destruct (ascii_dec c x); [apply IH; exact H | discriminate].
Qed.

Lemma contains_app_r (sub s b : string) : contains sub s = true -> contains sub (s ++ b) = true.
Proof.
  induction s as [|x s IH]; intro H.
  - destruct sub; [destruct b; reflexivity | discriminate].
  - change (String x s ++ b) with (String x (s ++ b)).
    cbn [contains] in H |- *; apply orb_true_iff in H as [H|H].
    + pose proof (prefix_app sub (String x s) b H) as Hp.
      change (String x s ++ b) with (String x (s ++ b)) in Hp.
      rewrite Hp; reflexivity.
    + apply orb_true_iff; right; apply IH; exact H.
Qed.

Lemma contains_app_l (sub a s : string) : contains sub s = true -> contains sub (a ++ s) = true.
Proof.
  induction a as [|x a IH]; intro H; [exact H|].
  cbn [append contains]; apply orb_true_iff; right; apply IH; exact H.
Qed.

Lemma lower_app (a b : string) : lower (a ++ b) = lower a ++ lower b.
Proof. induction a as [|x a IH]; simpl; [reflexivity | now rewrite IH]. Qed.

Lemma lower_char_idem (c : ascii) : lower_char (lower_char c) = lower_char c.
Proof.
  unfold lower_char at 2 3.
  destruct ((65 <=? nat_of_ascii c) && (nat_of_ascii c <=? 90))%nat eqn:E.
  - apply andb_true_iff in E as [E1 E2]; apply Nat.leb_le in E1, E2.
    unfold lower_char; rewrite Ascii.nat_ascii_embedding by lia.
    replace ((65 <=? nat_of_ascii c + 32) && (nat_of_ascii c + 32 <=? 90))%nat with false.
    + reflexivity.
    + symmetry; apply andb_false_iff; right; apply Nat.leb_gt; lia.
  - unfold lower_char; rewrite E; reflexivity.
Qed.

Lemma lower_idem (s : string) : lower (lower s) = lower s.
Proof.
  induction s as [|c r IH]; [reflexivity|].
  cbn [lower]; rewrite IH, lower_char_idem; reflexivity.
Qed.



Lemma inv_add (st : MM) (r c : string) : counter_inv st -> counter_inv (add_message r c st).
Proof.
  unfold counter_inv, add_message; simpl; intro H.
  rewrite count_user_msgs_app; simpl; rewrite H.
  destruct (String.eqb r "user"); lia.
Qed.

Lemma inv_summarize (st : MM) llm ts ok :
  counter_inv st -> counter_inv (snd (summarize_short_term_memory llm ts ok st)).
Proof.
  intro H; unfold summarize_short_term_memory.
  destruct (is_nil (message_buffer st)); [exact H|].
  destruct ok; [apply counter_inv_reset | exact H].
Qed.

Lemma inv_save (st : MM) llm d ts lt_ok st_ok :
  counter_inv st -> counter_inv (snd (save_to_long_term_memory llm d ts lt_ok st_ok st)).
Proof.
  intro H; unfold save_to_long_term_memory.
  destruct (short_term_file (files st)) as [c|]; [|exact H].
  destruct (no_content c); [exact H|].
  destruct lt_ok; [|exact H].
  destruct st_ok; [apply counter_inv_reset|].
  apply counter_inv_set_long; exact H.
Qed.

Lemma inv_clear (st : MM) ok : counter_inv (snd (clear_short_term_memory ok st)).
Proof.
  unfold clear_short_term_memory.
  destruct ok; [apply counter_inv_set_short|]; apply counter_inv_reset.
Qed.

Lemma render_msgs_snoc (b : list Msg) (m : Msg) :
  render_msgs (app b [m]) = render_msgs b ++ role_label m ++ ": " ++ content m ++ nl.
Proof. unfold render_msgs; rewrite fold_left_app; reflexivity. Qed.

Lemma short_term_prompt_suffix (st : MM) (p s : list Msg) (c1 c2 : Z) :
  (0 < short_term_limit st)%Z -> (short_term_limit st <= Z.of_nat (length s))%Z ->
  short_term_prompt (set_buffer st (app p s) c1) = short_term_prompt (set_buffer st s c2).
Proof.
  intros H0 Hs; unfold short_term_prompt; cbn [message_buffer short_term_limit set_buffer].
  rewrite !slice_from_neg by exact H0.
  rewrite length_app, skipn_app.
  replace (skipn (length p + length s - Z.to_nat (short_term_limit st)) p) with (@nil Msg).
  - replace (length p + length s - Z.to_nat (short_term_limit st) - length p)%nat
      with (length s - Z.to_nat (short_term_limit st))%nat by lia.
    reflexivity.
  - symmetry; apply skipn_all2; lia.
Qed.

(* ------------------------------------------------------------------ *)
(** ** Further properties of memory_manager.py *)



(** With a non-empty buffer, adding a message extends the short-term
    context by exactly one line, "User: ..." for role "user" and
    "Assistant: ..." for any other role: every buffered message is
    rendered, in order, whatever the summarization limit. *)
Theorem short_term_context_add_message :
  forall (r c : string) (st : MM),
    message_buffer st <> [] ->
    get_short_term_memory_context (add_message r c st) =
    get_short_term_memory_context st ++
      (if String.eqb r "user" then "User" else "Assistant") ++ ": " ++ c ++ nl.
Proof.
  intros r c st Hne; unfold get_short_term_memory_context, add_message.
  cbn [set_buffer message_buffer].
  destruct (message_buffer st) as [|m b] eqn:Hb; [contradiction|].
  replace (is_nil (app (m :: b) [mkMsg r c])) with false by (destruct b; reflexivity).
  cbn [is_nil]; rewrite render_msgs_snoc, !str_app_assoc; reflexivity.
Qed.

Lemma short_term_context_add_message_witness :
  get_short_term_memory_context
    (add_message "assistant" "Oatmeal." (add_message "user" "Breakfast?" (init 3 3 (mkFiles None None)))) =
  get_short_term_memory_context (add_message "user" "Breakfast?" (init 3 3 (mkFiles None None))) ++
    (if String.eqb "assistant" "user" then "User" else "Assistant") ++ ": " ++ "Oatmeal." ++ nl.
Proof.
  apply short_term_context_add_message; discriminate.
Defined.

(** Only the last [short_term_limit] buffered messages reach the
    summarization prompt, but the whole buffer is cleared: messages
    buffered before those last [short_term_limit] change neither the
    summary nor the state a successful summarization leaves. *)
Theorem summarize_ignores_older_messages :
  forall (llm : string -> string) (ts : string) (st : MM) (p s : list Msg) (c1 c2 : Z),
    (0 < short_term_limit st)%Z -> (short_term_limit st <= Z.of_nat (length s))%Z ->
    summarize_short_term_memory llm ts true (set_buffer st (app p s) c1) =
    summarize_short_term_memory llm ts true (set_buffer st s c2).
Proof.
  intros llm ts st p s c1 c2 H0 Hs.
  unfold summarize_short_term_memory.
  rewrite (short_term_prompt_suffix st p s c1 c2 H0 Hs).
  destruct s as [|m s']; [simpl in Hs; lia|].
  replace (is_nil (message_buffer (set_buffer st (app p (m :: s')) c1))) with false
    by (destruct p; reflexivity).
  reflexivity.
Qed.

Lemma summarize_ignores_older_messages_witness :
  let st := init 1 3 (mkFiles None None) in
  summarize_short_term_memory (fun p => p) "t" true
    (set_buffer st (app [mkMsg "user" "Breakfast?"] [mkMsg "assistant" "Oatmeal."]) 1%Z) =
  summarize_short_term_memory (fun p => p) "t" true
    (set_buffer st [mkMsg "assistant" "Oatmeal."] 0%Z).
Proof.
  apply summarize_ignores_older_messages; simpl; lia.
Defined.

(** The delimiter scan of [load_long_term_memory_context] recovers, in
    order, every entry appended by [save_to_long_term_memory] after a
    preamble of plain lines (such as the file header): each recovered
    session is the marker line, the summary and the closing line, provided
    dates and timestamps hold no newline and no summary line looks like a
    delimiter. *)
Theorem parse_sessions_recovers_entries :
  forall (pre : string) (es : list (string * string * string)),
    forallb line_ok (split_nl pre) = true -> forallb entry_ok es = true ->
    parse_sessions (pre ++ entries_text es) =
    map (fun '(d, t, s) => session_marker d t ++ nl ++ s ++ nl ++ eq_line) es.
Proof.
  intros pre es Hpre Hes.
  rewrite (parse_sessions_pre_entries pre es Hpre Hes).
  apply map_ext; intros [[d t] s]; reflexivity.
Qed.

Lemma parse_sessions_recovers_entries_witness :
  parse_sessions (long_term_header ++
     entries_text [("2026-10-18", "2026-10-18 09:00:00", "Low carb.");
                   ("2026-10-19", "2026-10-19 09:00:00", "High protein.")]) =
  map (fun '(d, t, s) => session_marker d t ++ nl ++ s ++ nl ++ eq_line)
      [("2026-10-18", "2026-10-18 09:00:00", "Low carb.");
       ("2026-10-19", "2026-10-19 09:00:00", "High protein.")].
Proof.
  apply parse_sessions_recovers_entries; vm_compute; reflexivity.
Defined.

(** When the long-term file existed but was empty at start-up (so
    [_ensure_memory_files] wrote no header) and K >= 1 entries have been
    appended, [load_long_term_memory_context] returns the last min(K, C)
    of them in order for a cap C > 0, and all K of them for C = 0. *)
Theorem load_context_headerless_store :
  forall (es : list (string * string * string)) (buf : list Msg) (cnt lim ses : Z)
         (sf : option string),
    es <> [] -> forallb entry_ok es = true ->
    let st := mkMM buf cnt lim ses (mkFiles sf (Some (entries_text es))) in
    ((0 < ses)%Z ->
       load_long_term_memory_context st =
       format_context (skipn (length es - Z.to_nat ses) (map body_of es))) /\
    (ses = 0%Z -> load_long_term_memory_context st = format_context (map body_of es)).
Proof.
  intros es buf cnt lim ses sf Hne Hok st; subst st.
  unfold load_long_term_memory_context; cbn [files long_term_file].
  destruct es as [|e r]; [contradiction|].
  rewrite no_content_entries; cbn iota.
  pose proof (parse_sessions_pre_entries EmptyString (e :: r) eq_refl Hok) as Hp.
  cbn [append] in Hp; rewrite Hp; cbn [map is_nil].
  split; intro Hs.
  - rewrite slice_from_neg by exact Hs; cbn [long_term_sessions].
    replace (length (body_of e :: map body_of r)) with (length (e :: r))
      by (cbn [length]; rewrite length_map; reflexivity).
    destruct (skipn (length (e :: r) - Z.to_nat ses) (body_of e :: map body_of r)) eqn:E.
    + exfalso; apply (f_equal (@length string)) in E.
      rewrite length_skipn in E.
      replace (length (body_of e :: map body_of r)) with (length (e :: r)) in E
        by (cbn [length]; rewrite length_map; reflexivity).
      cbn [length] in E; lia.
    + reflexivity.
  - subst ses; rewrite slice_from_zero; reflexivity.
Qed.

Lemma load_context_headerless_store_witness :
  let es := [("2026-10-18", "2026-10-18 09:00:00", "Low carb.");
             ("2026-10-19", "2026-10-19 09:00:00", "High protein.")] in
  load_long_term_memory_context (mkMM [] 0 10 1 (mkFiles None (Some (entries_text es)))) =
  format_context (skipn (length es - Z.to_nat 1) (map body_of es)).
Proof.
  intro es.
  apply (load_context_headerless_store es [] 0 10 1 None); [discriminate | vm_compute; reflexivity | lia].
Defined.

Lemma chat_state (env : Env) (u : string) (st : MM) :
  snd (chat env u st) =
  (let st1 := add_message "assistant" (reply env) (add_message "user" u st) in
   if fst (should_summarize st1)
   then snd (summarize_short_term_memory (llm env) (now_timestamp env) (short_write_ok env) st1)
   else st1).
Proof.
  unfold chat; cbv zeta.
  destruct (fst (should_summarize _)); [|reflexivity].
  destruct (summarize_short_term_memory _ _ _ _) as [[a|] st2]; reflexivity.
Qed.

(* ------------------------------------------------------------------ *)
(** ** Properties of the caller, src/DietAI/main.py *)

(** [_check_emergency_keywords] ignores letter case, and a message that
    triggers it still triggers it with any text around it. *)
Theorem check_emergency_keywords_case_context :
  forall (a s b : string),
    check_emergency_keywords (lower s) = check_emergency_keywords s /\
    (check_emergency_keywords s = true -> check_emergency_keywords (a ++ s ++ b) = true).
Proof.
  intros a s b; split.
  - unfold check_emergency_keywords; rewrite lower_idem; reflexivity.
  - unfold check_emergency_keywords; intro H.
    apply existsb_exists in H as [kw [Hin Hc]].
    apply existsb_exists; exists kw; split; [exact Hin|].
    rewrite !lower_app; apply contains_app_l, contains_app_r; exact Hc.
Qed.

Lemma check_emergency_keywords_case_context_witness :
  check_emergency_keywords (lower "Chest Pain") = check_emergency_keywords "Chest Pain" /\
  check_emergency_keywords ("I have " ++ "Chest Pain" ++ " since noon") = true.
Proof.
  split.
  - exact (proj1 (check_emergency_keywords_case_context "I have " "Chest Pain" " since noon")).
  - apply (proj2 (check_emergency_keywords_case_context "I have " "Chest Pain" " since noon")).
    vm_compute; reflexivity.
Defined.





(** Every step of the loop keeps "counter = number of buffered messages
    with role user". *)
Theorem run_step_counter_inv :
  forall (env : Env) (line : string) (st : MM),
    counter_inv st -> counter_inv (snd (run_step env line st)).
Proof.
  intros env line st H; unfold run_step.
  destruct (String.eqb (strip line) EmptyString); [exact H|].
  destruct (startswith "/" (strip line)).
  - destruct (String.eqb (lower (strip line)) "/exit").
    + pose proof (inv_save st (llm env) (session_date env) (now_timestamp env)
                    (long_write_ok env) (short_write_ok env) H) as Hs.
      destruct (save_to_long_term_memory _ _ _ _ _ st) as [[[]|] st']; exact Hs.
    + destruct (String.eqb (lower (strip line)) "/clear"); [apply inv_clear | exact H].
  - destruct (check_emergency_keywords (strip line)); [exact H|].
    rewrite chat_state; cbv zeta.
    assert (H1 : counter_inv (add_message "assistant" (reply env)
                               (add_message "user" (strip line) st)))
      by (apply inv_add, inv_add, H).
    destruct (fst (should_summarize _)); [apply inv_summarize|]; exact H1.
Qed.

Lemma run_step_counter_inv_witness :
  counter_inv (snd (run_step (mkEnv "r" (fun _ => "s") "d" "t" true true) "Breakfast?"
                      (init 3 3 (mkFiles None None)))).
Proof. apply run_step_counter_inv; reflexivity. Defined.



(** [chat] records the user message and then the reply.  Below the limit
    it only buffers them.  When the turn reaches short_term_limit it
    summarizes: on a successful write the buffer is emptied, the counter
    zeroed and one entry appended to the short-term file; on a failed
    write it raises with both messages still buffered. *)
Theorem chat_spec :
  forall (env : Env) (u : string) (st : MM),
    let st1 := add_message "assistant" (reply env) (add_message "user" u st) in
    message_buffer st1 = app (message_buffer st) [mkMsg "user" u; mkMsg "assistant" (reply env)] /\
    message_counter st1 = (message_counter st + 1)%Z /\
    ((message_counter st + 1 < short_term_limit st)%Z -> chat env u st = (Ret (reply env), st1)) /\
    ((short_term_limit st <= message_counter st + 1)%Z -> short_write_ok env = true ->
       let '(r, st') := chat env u st in
       r = Ret (reply env) /\ message_buffer st' = [] /\ message_counter st' = 0%Z /\
       short_term_file (files st') =
         append_file (short_term_file (files st))
           (short_term_entry (now_timestamp env) (llm env (short_term_prompt st1)))) /\
    ((short_term_limit st <= message_counter st + 1)%Z -> short_write_ok env = false ->
       chat env u st = (Raise, st1)).
Proof.
  intros env u st st1.
  assert (Hb : message_buffer st1 =
               app (message_buffer st) [mkMsg "user" u; mkMsg "assistant" (reply env)])
    by (subst st1; cbn; rewrite <- app_assoc; reflexivity).
  assert (Hc : message_counter st1 = (message_counter st + 1)%Z) by (subst st1; cbn; lia).
  assert (Hn : is_nil (message_buffer st1) = false)
    by (rewrite Hb; destruct (message_buffer st); reflexivity).
  assert (Hl : short_term_limit st1 = short_term_limit st) by reflexivity.
  split; [exact Hb|]; split; [exact Hc|].
  assert (Hs : fst (should_summarize st1) = (short_term_limit st <=? message_counter st + 1)%Z)
    by (unfold should_summarize; cbn [fst]; rewrite Hc, Hl; reflexivity).
  unfold chat; fold st1; rewrite Hs.
  split; [|split].
  - intro H; replace (short_term_limit st <=? message_counter st + 1)%Z with false
      by (symmetry; apply Z.leb_gt; lia); reflexivity.
  - intros H Hok; replace (short_term_limit st <=? message_counter st + 1)%Z with true
      by (symmetry; apply Z.leb_le; lia).
    unfold summarize_short_term_memory; rewrite Hn, Hok; repeat split.
  - intros H Hok; replace (short_term_limit st <=? message_counter st + 1)%Z with true
      by (symmetry; apply Z.leb_le; lia).
    unfold summarize_short_term_memory; rewrite Hn, Hok; reflexivity.
Qed.

Lemma chat_spec_witness :
  let env := mkEnv "Oatmeal." (fun _ => "s") "d" "t" true true in
  let st := init 3 3 (mkFiles None None) in
  chat env "Breakfast?" st =
  (Ret (reply env), add_message "assistant" (reply env) (add_message "user" "Breakfast?" st)).
Proof.
  intros env st.
  apply (proj1 (proj2 (proj2 (chat_spec env "Breakfast?" st)))).
  vm_compute; reflexivity.
Defined.

(** [_build_complete_prompt] in a session whose short-term file starts
    with its header (as [_ensure_memory_files] and every reset leave it):
    the system message first, the long-term block only when the loaded
    context is non-empty, a short-term block only when the buffer is
    non-empty (so summaries written to the short-term file never reach the
    prompt), and the user query last. *)
Theorem build_complete_prompt_headed_short_store :
  forall (sys ltc q rest : string) (buf : list Msg) (cnt lim ses : Z) (ltf : option string),
    let st := mkMM buf cnt lim ses (mkFiles (Some (short_term_header ++ rest)) ltf) in
    build_complete_prompt sys ltc st q =
    app [mkMsg "system" sys]
    (app (if String.eqb ltc EmptyString then []
          else [mkMsg "system" (nl ++ nl ++ "LONG-TERM MEMORY:" ++ nl ++ ltc)])
    (app (if is_nil buf then []
          else [mkMsg "system" (nl ++ nl ++ "Current Session Messages:" ++ nl ++ render_msgs buf)])
    [mkMsg "user" q])).
Proof.
  intros sys ltc q rest buf cnt lim ses ltf st; subst st.
  unfold build_complete_prompt, get_short_term_memory_context; cbn [message_buffer files short_term_file].
  destruct buf as [|m b]; cbn [is_nil].
  - destruct (short_term_header_hash rest) as [r Hr]; rewrite Hr, strip_hash.
    reflexivity.
  - reflexivity.
Qed.
